(** * motion: the animation strategy selector and the range transform

    A shallow embedding of
      - [src/utils/transform.ts]                       ([transform], [getMixer],
        [isCustomValueType]), and
      - [packages/framer-motion/src/animation/index.ts] ([createMotionValueAnimation]),
    with the properties their specification states about them.

    JavaScript numbers are IEEE 754 binary64 values: they are modelled by
    Rocq's primitive floats, whose operations are the same ones.  Objects are
    finite maps from property names to values, so that an object literal with
    a spread, [{a, b, ...o}], is a (left-biased) union of maps. *)

From Stdlib Require Import Floats ZArith.
From stdpp Require Import gmap strings list fin_maps pretty.

Set Warnings "-inexact-float,-register-all".
Local Open Scope Z_scope.

(** ** The fragment of JavaScript both files are written in *)

Module JS.

(** Values.  A [VFun] is a function supplied from outside (a user callback, an
    easing, a mixer): it is known by its name only.  [VOnUpdate] and
    [VOnComplete] are the two closures [createMotionValueAnimation] itself
    builds; each records the values it captured. *)
Inductive JSValue :=
  | VUndefined
  | VNull
  | VBool (b : bool)
  | VNum (x : float)
  | VStr (s : string)
  | VArr (xs : list JSValue)
  | VObj (props : gmap string JSValue)
  | VFun (name : string)
  | VOnUpdate (userOnUpdate : JSValue)
  | VOnComplete (onComplete userOnComplete : JSValue).

(** What a call can raise. [PreconditionViolation] is the failed invariant of
    the interpolation library. *)
Inductive JSError := TypeError | PreconditionViolation.

Inductive result (A : Type) :=
  | Ok (a : A)
  | Throw (e : JSError).
Arguments Ok {A} a.
Arguments Throw {A} e.

#[global] Instance result_ret : MRet result := fun _ a => Ok a.
#[global] Instance result_bind : MBind result := fun _ _ f m =>
  match m with Ok a => f a | Throw e => Throw e end.
#[global] Instance result_fmap : FMap result := fun _ _ f m =>
  match m with Ok a => Ok (f a) | Throw e => Throw e end.

(** [!!v]: [undefined], [null], [false], [0], [-0], [NaN] and [""] are falsy. *)
Definition truthy (v : JSValue) : bool :=
  match v with
  | VUndefined | VNull => false
  | VBool b => b
  | VNum x => negb (PrimFloat.eqb x 0 || PrimFloat.is_nan x)
  | VStr s => negb (String.eqb s "")
  | _ => true
  end.

(** [a || b] *)
Definition js_or (a b : JSValue) : JSValue := if truthy a then a else b.

(** [typeof v] *)
Definition typeof (v : JSValue) : string :=
  match v with
  | VUndefined => "undefined"
  | VNull | VArr _ | VObj _ => "object"
  | VBool _ => "boolean"
  | VNum _ => "number"
  | VStr _ => "string"
  | VFun _ | VOnUpdate _ | VOnComplete _ _ => "function"
  end.

(** [Array.isArray(v)] *)
Definition isArray (v : JSValue) : bool :=
  match v with VArr _ => true | _ => false end.

(** [o.k] for an object given by its properties: [undefined] when absent. *)
Definition get (o : gmap string JSValue) (k : string) : JSValue :=
  default VUndefined (o !! k).

(** The properties numbered from 0 of an array or of the characters of a string. *)
Definition indexed (xs : list JSValue) : gmap string JSValue :=
  list_to_map (imap (fun i v => (pretty i, v)) xs).

Fixpoint chars (s : string) : list JSValue :=
  match s with
  | EmptyString => []
  | String c s' => VStr (String c EmptyString) :: chars s'
  end.

(** The own enumerable properties of a value: what [{...v}] copies, and what
    [v.k] reads for a name [k] that the prototypes do not define.  Functions
    are taken to carry no properties of their own. *)
Definition own_props (v : JSValue) : gmap string JSValue :=
  match v with
  | VObj props => props
  | VArr xs => indexed xs
  | VStr s => indexed (chars s)
  | _ => ∅
  end.

(** [v.k], for a name [k] that is neither an index nor on a prototype:
    reading a property of [null] or [undefined] raises a [TypeError]. *)
Definition member (v : JSValue) (k : string) : result JSValue :=
  match v with
  | VUndefined | VNull => Throw TypeError
  | VObj props => Ok (get props k)
  | _ => Ok VUndefined
  end.

(** [v[0]] *)
Definition first (v : JSValue) : result JSValue :=
  match v with
  | VUndefined | VNull => Throw TypeError
  | VArr xs => Ok (nth 0 xs VUndefined)
  | VStr s => Ok (nth 0 (chars s) VUndefined)
  | VObj props => Ok (get props "0")
  | _ => Ok VUndefined
  end.

(** [args[i]] on the list of the arguments: [undefined] outside of it, also
    for a negative index. *)
Definition arg (args : list JSValue) (i : Z) : JSValue :=
  if i <? 0 then VUndefined else nth (Z.to_nat i) args VUndefined.

(** Numbers read from the primitive values; the conversions of strings and
    objects are not modelled ([None]). *)
Definition to_number (v : JSValue) : option float :=
  match v with
  | VNum x => Some x
  | VUndefined => Some nan
  | VNull => Some 0%float
  | VBool b => Some (if b then 1%float else 0%float)
  | _ => None
  end.

(** [a - b] *)
Definition js_sub (a b : JSValue) : option JSValue :=
  x ← to_number a; y ← to_number b; Some (VNum (PrimFloat.sub x y)).

(** [v === false] and [v === s] for a string literal [s] *)
Definition is_false (v : JSValue) : bool :=
  match v with VBool false => true | _ => false end.

Definition is_string (s : string) (v : JSValue) : bool :=
  match v with VStr s' => String.eqb s' s | _ => false end.

End JS.
Export JS.

(** ** [src/utils/transform.ts] *)

Module Transform.

(** What [transform] returns: a value in the immediate shape, the
    interpolator in the curried one. *)
Inductive Returned :=
  | Value (v : JSValue)
  | Interpolator (f : JSValue → result JSValue).

(** Calling what the curried shape returned. *)
Definition applied (input : JSValue) (r : Returned) : result Returned :=
  match r with
  | Interpolator f => Value <$> f input
  | Value _ => Throw TypeError
  end.

(** [typeof v === "object" && v.mix]: the value of the conjunction. *)
Definition isCustomValueType (v : JSValue) : result JSValue :=
  if String.eqb (typeof v) "object" then member v "mix" else Ok (VBool false).

(** [isCustomValueType(v) ? v.mix : undefined] *)
Definition getMixer (v : JSValue) : result JSValue :=
  c ← isCustomValueType v;
  if truthy c then member v "mix" else Ok VUndefined.

Section WithInterpolate.

(** [interpolate] of the popmotion library: it takes the two ranges and the
    options, and gives the interpolator (or fails on its invariants). *)
Variable interpolate :
  JSValue → JSValue → gmap string JSValue → result (JSValue → result JSValue).

Definition useImmediate (args : list JSValue) : bool := negb (isArray (arg args 0)).

Definition argOffset (args : list JSValue) : Z := if useImmediate args then 0 else -1.

Definition inputValue (args : list JSValue) : JSValue := arg args (0 + argOffset args).
Definition inputRange (args : list JSValue) : JSValue := arg args (1 + argOffset args).
Definition outputRange (args : list JSValue) : JSValue := arg args (2 + argOffset args).
Definition options (args : list JSValue) : JSValue := arg args (3 + argOffset args).

Definition transform (args : list JSValue) : result Returned :=
  o0 ← first (outputRange args);
  mixer ← getMixer o0;
  interpolator ← interpolate (inputRange args) (outputRange args)
                   (own_props (options args) ∪ {[ "mixer" := mixer ]});
  if useImmediate args then Value <$> interpolator (inputValue args)
  else Ok (Interpolator interpolator).

End WithInterpolate.

End Transform.

(** ** The interpolation library behind [transform]

    [interpolate] comes from the popmotion library and is not among the
    sources: this module follows section 4.2 of the specification. *)

Module Popmotion.

(** Modelled from the spec: the input range is a sequence of numbers. *)
Fixpoint numbers (xs : list JSValue) : option (list float) :=
  match xs with
  | [] => Some []
  | VNum x :: tl => cons x <$> numbers tl
  | _ => None
  end.

(** Modelled from the spec: the ends [[min, max]] of the input range are
    taken with these two. *)
Definition fmin (a b : float) : float := if PrimFloat.ltb b a then b else a.
Definition fmax (a b : float) : float := if PrimFloat.ltb a b then b else a.

(** Modelled from the spec: [v] lies in the segment from [a] to [b],
    whichever of the two ends is the larger one. *)
Definition between (a b v : float) : bool :=
  PrimFloat.leb (fmin a b) v && PrimFloat.leb v (fmax a b).

(** Modelled from the spec: the ordinal of the first segment
    [[input[i], input[i+1]]], in ascending order, that brackets [v]. *)
Fixpoint bracketing (input : list float) (v : float) : option nat :=
  match input with
  | [] => None
  | a :: tl =>
      match tl with
      | b :: _ => if between a b v then Some 0%nat else S <$> bracketing tl v
      | [] => None
      end
  end.

(** Modelled from the spec: the segment of [v] is the one that brackets it,
    in an increasing range and in a decreasing one alike; beyond the ends of
    the range it is the segment at the nearest end. *)
Definition locate (input : list float) (v : float) : nat :=
  match bracketing input v with
  | Some i => i
  | None =>
      let first := nth 0 input nan in
      let last := nth (length input - 1) input nan in
      if PrimFloat.leb (PrimFloat.abs (PrimFloat.sub v first))
                       (PrimFloat.abs (PrimFloat.sub v last))
      then 0%nat
      else (length input - 2)%nat
  end.

(** Modelled from the spec: the normalized position of [v] in the segment
    from [a] to [b]. *)
Definition progress (a b v : float) : float :=
  PrimFloat.div (PrimFloat.sub v a) (PrimFloat.sub b a).

(** Modelled from the spec: the blend of two numbers is linear. *)
Definition mixNumber (a b t : float) : float :=
  PrimFloat.add a (PrimFloat.mul (PrimFloat.sub b a) t).

Section Interpolate.

(** Calls of the functions given from outside (easings, mixers), and the
    blend of two composite values (colours and the like) at a position. *)
Variable callFn : JSValue → list JSValue → result JSValue.
Variable blend : JSValue → JSValue → float → result JSValue.

(** Modelled from the spec: [options.clamp] defaults to [true]. *)
Definition clampOption (options : gmap string JSValue) : bool :=
  match get options "clamp" with
  | VUndefined => true
  | c => truthy c
  end.

(** Modelled from the spec: with [clamp], a value outside of the input range
    saturates to its nearest end. *)
Definition clampInput (clamp : bool) (input : list float) (v : float) : float :=
  if clamp then
    let lo := foldr fmin (nth 0 input nan) input in
    let hi := foldr fmax (nth 0 input nan) input in
    fmin (fmax v lo) hi
  else v.

(** Modelled from the spec: the easing of segment [i] is one function for
    every segment, or one per segment, or none. *)
Definition eased (ease : JSValue) (i : nat) (t : float) : result float :=
  match ease with
  | VUndefined => Ok t
  | _ =>
      r ← callFn (match ease with VArr es => nth i es VUndefined | e => e end) [VNum t];
      match r with VNum t' => Ok t' | _ => Throw PreconditionViolation end
  end.

(** Modelled from the spec: the blend of a segment is the given mixer when
    there is one, the linear blend for numbers, the typed blend otherwise. *)
Definition mixed (mixer from to : JSValue) (t : float) : result JSValue :=
  match mixer with
  | VUndefined =>
      match from, to with
      | VNum a, VNum b => Ok (VNum (mixNumber a b t))
      | _, _ => blend from to t
      end
  | _ => f ← callFn mixer [from; to]; callFn f [VNum t]
  end.

(** Modelled from the spec: steps 2 and 3 of the algorithm, for one input. *)
Definition interpolator (clamp : bool) (ease mixer : JSValue)
    (input : list float) (output : list JSValue) (v : JSValue) : result JSValue :=
  match v with
  | VNum x =>
      let x' := clampInput clamp input x in
      let i := locate input x' in
      t ← eased ease i (progress (nth i input nan) (nth (S i) input nan) x');
      mixed mixer (nth i output VUndefined) (nth (S i) output VUndefined) t
  | _ => Throw PreconditionViolation
  end.

(** Modelled from the spec: [interpolate] of the popmotion library, which
    [transform] calls and which is not among the sources.  Section 4.2: equal
    lengths of at least 2 or a precondition violation; [clamp] defaults to
    [true] and saturates the input to the ends of the input range; the
    bracketing segment is found by its ordinal; the position in it is eased
    and then mixed, by [options.mixer] when supplied. *)
Definition interpolate (inputRange outputRange : JSValue)
    (options : gmap string JSValue) : result (JSValue → result JSValue) :=
  let clamp := clampOption options in
  let ease := get options "ease" in
  let mixer := get options "mixer" in
  match inputRange, outputRange with
  | VArr ins, VArr output =>
      match numbers ins with
      | Some input =>
          if (length input =? length output)%nat && (2 <=? length input)%nat
          then Ok (interpolator clamp ease mixer input output)
          else Throw PreconditionViolation
      | None => Throw PreconditionViolation
      end
  | _, _ => Throw PreconditionViolation
  end.

End Interpolate.

(** The ranges of the examples hold numbers only. *)
Definition noFunction (f : JSValue) (args : list JSValue) : result JSValue :=
  Throw TypeError.
Definition noComposite (a b : JSValue) (t : float) : result JSValue :=
  Throw TypeError.

Definition interpolateNumbers := interpolate noFunction noComposite.

End Popmotion.

(** ** [packages/framer-motion/src/animation/index.ts] *)

Module Animation.

(** The owner of a motion value, with the props it was given, and the motion
    value: its current value, its velocity and its owner if it has one.
    [value.set(v)] is recorded as the event [ValueSet v]. *)
Record VisualElement := { getProps : gmap string JSValue }.

Record MotionValue := {
  current : JSValue;
  getVelocity : float;
  owner : option VisualElement
}.

(** What is observed of a run: the writes to the motion value and the calls
    of the functions given from outside, in order, and the exception that
    ended it, if one did. *)
Inductive Event :=
  | ValueSet (v : JSValue)
  | Called (fn : string) (args : list JSValue).

Definition Run : Type := list Event * option JSError.

Definition andThen (r1 r2 : Run) : Run :=
  match r1 with
  | (es, None) => (es ++ r2.1, r2.2)
  | (es, Some e) => (es, Some e)
  end.

Definition nothing : Run := ([], None).

(** Calling a value.  The two closures are those of lines 56-63:
    [(v) => { value.set(v); valueTransition.onUpdate && valueTransition.onUpdate(v) }]
    and
    [() => { onComplete(); valueTransition.onComplete && valueTransition.onComplete() }];
    [valueTransition] is not written to after they are built, so each holds
    the field it will read. *)
Fixpoint call (f : JSValue) (args : list JSValue) : Run :=
  match f with
  | VFun name => ([Called name args], None)
  | VOnUpdate userOnUpdate =>
      let v := arg args 0 in
      andThen ([ValueSet v], None)
        (if truthy userOnUpdate then call userOnUpdate [v] else nothing)
  | VOnComplete onComplete userOnComplete =>
      andThen (call onComplete [])
        (if truthy userOnComplete then call userOnComplete [] else nothing)
  | _ => ([], Some TypeError)
  end.

(** The process-wide flag [instantAnimationState.current] and the probe
    [supports.waapi()]. *)
Record Environment := {
  instantAnimationState_current : bool;
  supports_waapi : bool
}.

(** The strategy that was started, with the options it was given. *)
Inductive Started :=
  | InstantAnimation (options : gmap string JSValue)
  | Inertia (options : gmap string JSValue)
  | AcceleratedAnimation
  | Animate (options : gmap string JSValue).

(** Modelled from the spec: [secondsToMilliseconds] of
    [utils/time-conversion], which is not among the sources: "pure function,
    ms = s * 1000". *)
Definition secondsToMilliseconds (seconds : JSValue) : option JSValue :=
  s ← to_number seconds; Some (VNum (PrimFloat.mul s 1000)).

(** A list of values that can be hardware-accelerated. *)
Definition acceleratedValues : gset string := ∅.

Section Selector.

(** The collaborators the file imports: [getValueTransition] and
    [isTransitionDefined] of [utils/transitions], [getKeyframes] of
    [utils/keyframes], [getDefaultTransition] of [utils/default-transitions]. *)
Variable getValueTransition : gmap string JSValue → string → JSValue.
Variable getKeyframes :
  MotionValue → string → JSValue → gmap string JSValue → JSValue.
Variable isTransitionDefined : gmap string JSValue → bool.
Variable getDefaultTransition :
  string → gmap string JSValue → gmap string JSValue.
Variable env : Environment.

(** [getValueTransition(transition, valueName) || {}] (line 27) *)
Definition valueTransitionOf (transition : gmap string JSValue)
    (valueName : string) : gmap string JSValue :=
  own_props (js_or (getValueTransition transition valueName) (VObj ∅)).

(** [valueTransition.delay || transition.delay || 0] (line 34) *)
Definition delayOf (valueTransition transition : gmap string JSValue) : JSValue :=
  js_or (js_or (get valueTransition "delay") (get transition "delay")) (VNum 0).

(** [let { elapsed = 0 } = transition; elapsed = elapsed - secondsToMilliseconds(delay)]
    (lines 40-41) *)
Definition elapsedOf (transition : gmap string JSValue) (delay : JSValue)
    : option JSValue :=
  let elapsed :=
    match get transition "elapsed" with VUndefined => VNum 0 | e => e end in
  ms ← secondsToMilliseconds delay;
  js_sub elapsed ms.

(** The object literal of lines 52-65: the spread of [valueTransition] comes
    last, so its fields replace those written before it. *)
Definition initialOptions (keyframes : JSValue) (value : MotionValue)
    (elapsed : JSValue) (valueTransition : gmap string JSValue)
    (onComplete : JSValue) : gmap string JSValue :=
  valueTransition ∪
  {[ "keyframes" := keyframes;
     "velocity" := VNum (getVelocity value);
     "elapsed" := elapsed;
     "onUpdate" := VOnUpdate (get valueTransition "onUpdate");
     "onComplete" := VOnComplete onComplete (get valueTransition "onComplete") ]}.

(** Lines 91-96: [{ ...options, ...getDefaultTransition(valueName, options) }]
    when no transition is defined for the value. *)
Definition withDefaultTransition (valueName : string)
    (valueTransition options : gmap string JSValue) : gmap string JSValue :=
  if negb (isTransitionDefined valueTransition)
  then getDefaultTransition valueName options ∪ options
  else options.

(** Lines 103-109, for [k] one of [duration] and [repeatDelay]:
    [if (options.k) { options.k = secondsToMilliseconds(options.k) }] *)
Definition inMilliseconds (k : string) (options : gmap string JSValue)
    : option (gmap string JSValue) :=
  if truthy (get options k)
  then ms ← secondsToMilliseconds (get options k); Some (<[k := ms]> options)
  else Some options.

(** Lines 111-116, for a set of accelerated values. *)
Definition canAccelerateAnimation (accelerated : gset string)
    (valueName : string) (value : MotionValue)
    (options : gmap string JSValue) : bool :=
  bool_decide (valueName ∈ accelerated)
  && supports_waapi env
  && match owner value with
     | Some element => negb (truthy (get (getProps element) "onUpdate"))
     | None => false
     end
  && negb (truthy (get options "repeat")).

(** The options of the two timeline strategies: the defaults laid over the
    initial options, then the two durations in milliseconds. *)
Definition timelineOptions (valueName : string)
    (valueTransition options : gmap string JSValue)
    : option (gmap string JSValue) :=
  inMilliseconds "duration" (withDefaultTransition valueName valueTransition options)
    ≫= inMilliseconds "repeatDelay".

(** The function [createMotionValueAnimation(valueName, value, target,
    transition)] returns, applied to [onComplete]; [transition] is [{}] when
    it is not given.  The set of the accelerated values is an argument here,
    and the constant of the file below. *)
Definition createMotionValueAnimationFor (accelerated : gset string)
    (valueName : string) (value : MotionValue) (target : JSValue)
    (transition : option (gmap string JSValue)) (onComplete : JSValue)
    : option Started :=
  let transition := default ∅ transition in
  let valueTransition := valueTransitionOf transition valueName in
  let delay := delayOf valueTransition transition in
  elapsed ← elapsedOf transition delay;
  let canAnimate := true in
  let keyframes := getKeyframes value valueName target valueTransition in
  let options :=
    initialOptions keyframes value elapsed valueTransition onComplete in
  if negb canAnimate
     || instantAnimationState_current env
     || is_false (get valueTransition "type")
  then Some (InstantAnimation options)
  else if is_string "inertia" (get valueTransition "type")
  then Some (Inertia options)
  else
    options ← timelineOptions valueName valueTransition options;
    if canAccelerateAnimation accelerated valueName value options
    then Some AcceleratedAnimation
    else Some (Animate options).

Definition createMotionValueAnimation :=
  createMotionValueAnimationFor acceleratedValues.

End Selector.

(** Modelled from the spec: [createInstantAnimation] of
    [create-instant-animation], which is not among the sources.  "Applies
    final keyframe immediately": the last keyframe goes to [onUpdate], with no
    frame before it, and then completion is invoked. *)
Definition createInstantAnimation (options : gmap string JSValue) : Run :=
  let final :=
    match get options "keyframes" with
    | VArr keyframes => last keyframes
    | _ => None
    end in
  andThen (call (get options "onUpdate") [default VUndefined final])
          (call (get options "onComplete") []).

End Animation.

(** ** The collaborators, as the specification describes them *)

Module Collaborators.
Import Animation.

(** Modelled from the spec: [getValueTransition] of [utils/transitions], which
    is not among the sources.  Step 1 of the selector: the entry of the
    transition under the value's name is merged onto the root transition, its
    fields winning one by one; with no such entry it is the root transition. *)
Definition getValueTransition (transition : gmap string JSValue)
    (key : string) : JSValue :=
  match transition !! key with
  | Some (VObj override) => VObj (override ∪ transition)
  | _ => VObj transition
  end.

(** Modelled from the spec: [getKeyframes] of [utils/keyframes], which is not
    among the sources.  A sequence is taken as it is, and a single target is
    expanded to [[current, target]]. *)
Definition getKeyframes (value : MotionValue) (valueName : string)
    (target : JSValue) (valueTransition : gmap string JSValue) : JSValue :=
  match target with
  | VArr _ => target
  | _ => VArr [current value; target]
  end.

(** Modelled from the spec: a field is specified when it is not [undefined]. *)
Definition specified (v : JSValue) : bool :=
  match v with VUndefined => false | _ => true end.

(** Modelled from the spec: [isTransitionDefined] of [utils/transitions],
    which is not among the sources.  A transition is not defined when it
    "leaves duration/easing/type fully unspecified".  The specification names
    these three fields only: a predicate that takes further fields, such as
    [stiffness], to define a transition differs from this one on the
    transitions that have only those; the properties of the selector are
    proved for every predicate, and what the examples state does not depend
    on the difference. *)
Definition isTransitionDefined (valueTransition : gmap string JSValue) : bool :=
  specified (get valueTransition "duration")
  || specified (get valueTransition "ease")
  || specified (get valueTransition "type").

(** Modelled from the spec: the default curve that is a spring. *)
Definition underDampedSpring : gmap string JSValue :=
  {[ "type" := VStr "spring"; "stiffness" := VNum 500;
     "damping" := VNum 25; "restSpeed" := VNum 10 ]}.

(** Modelled from the spec: the default curve with a duration. *)
Definition easeDefault : gmap string JSValue :=
  {[ "type" := VStr "keyframes"; "duration" := VNum 0.3 ]}.

(** Modelled from the spec: [getDefaultTransition] of
    [utils/default-transitions], which is not among the sources.  The
    specification gives its contract, "(valueName, options) -> partial
    options overlay", with different curves for different value names, and
    not its table: this one stands for it, with a spring for positions,
    rotations and scales and a duration for everything else, and does not
    read the options.  The properties of the selector are proved for every
    table; this one only serves to run the examples. *)
Definition getDefaultTransition (valueName : string)
    (options : gmap string JSValue) : gmap string JSValue :=
  if bool_decide (valueName ∈ ["x"; "y"; "z"; "rotate"; "scale"])
  then underDampedSpring
  else easeDefault.

Definition createMotionValueAnimation :=
  Animation.createMotionValueAnimation
    getValueTransition getKeyframes isTransitionDefined getDefaultTransition.

End Collaborators.

(** ** Inputs of the examples, and the properties as predicates *)

Module Samples.
Import Animation.

Definition range (xs : list float) : JSValue := VArr (VNum <$> xs).

(** No instant animations; the accelerated backend is supported. *)
Definition browser : Environment :=
  {| instantAnimationState_current := false; supports_waapi := true |}.

(** A motion value at 0 and at rest, without an owner and with one that has
    no [onUpdate] prop. *)
Definition atRest : MotionValue :=
  {| current := VNum 0; getVelocity := 0%float; owner := None |}.

Definition owned : MotionValue :=
  {| current := VNum 0; getVelocity := 0%float;
     owner := Some {| getProps := ∅ |} |}.

(** A set of accelerated values that is not empty. *)
Definition opacityOnly : gset string := {[ "opacity" ]}.

(** The options that a transition of one second after a delay of 0.2 gives
    the main-thread strategy. *)
Definition tweenOptions : gmap string JSValue :=
  {[ "keyframes" := VArr [VNum 0; VNum 1];
     "velocity" := VNum 0;
     "elapsed" := VNum (-200);
     "onUpdate" := VOnUpdate VUndefined;
     "onComplete" := VOnComplete (VFun "done") VUndefined;
     "delay" := VNum 0.2;
     "duration" := VNum 1000 ]}.

(** A call of [transform] on values that carry a [mix] of their own, with
    options that hold [mixer: undefined]. *)
Definition mixableArgs : list JSValue :=
  [VNum 50; range [0; 100]%float;
   VArr [VObj {[ "mix" := VFun "mixColor" ]}; VObj {[ "mix" := VFun "mixColor" ]}];
   VObj {[ "mixer" := VUndefined ]}].

(** The options that the transition [{type: "inertia", velocity: 200,
    duration: 2}] gives the inertia strategy. *)
Definition inertiaOptions : gmap string JSValue :=
  {[ "keyframes" := VArr [VNum 0; VNum 1];
     "velocity" := VNum 200;
     "elapsed" := VNum 0;
     "onUpdate" := VOnUpdate VUndefined;
     "onComplete" := VOnComplete (VFun "done") VUndefined;
     "type" := VStr "inertia";
     "duration" := VNum 2 ]}.




(** The field [k], given in seconds in [public], is in milliseconds in
    [delivered]. *)
Definition inMillisecondsIn (public delivered : gmap string JSValue)
    (k : string) : Prop :=
  ∀ s, get public k = VNum s → get delivered k = VNum (PrimFloat.mul s 1000).

End Samples.

(** ** Properties of [transform] *)

Module TransformProperties.
Import Transform Popmotion Samples.

Example interpolate_multi_segment :
  let f := transform interpolateNumbers
             [range [-200; -100; 100; 200]%float; range [0; 1; 1; 0]%float] in
  (f ≫= applied (VNum (-150))) = Ok (Value (VNum 0.5)) ∧
  (f ≫= applied (VNum 0)) = Ok (Value (VNum 1)) ∧
  (f ≫= applied (VNum 150)) = Ok (Value (VNum 0.5)).
Proof. vm_compute. auto. Qed.

Example interpolate_decreasing_range :
  transform interpolateNumbers
    [VNum 25; range [100; 50; 0]%float; range [0; 1; 3]%float]
  = Ok (Value (VNum 2))
  ∧ transform interpolateNumbers
      [VNum 150; range [100; 50; 0]%float; range [0; 1; 3]%float;
       VObj {[ "clamp" := VBool false ]}]
    = Ok (Value (VNum (-1)))
  ∧ transform interpolateNumbers
      [VNum (-50); range [0; 50; 100]%float; range [0; 1; 3]%float;
       VObj {[ "clamp" := VBool false ]}]
    = Ok (Value (VNum (-1))).
Proof. vm_compute. auto. Qed.

Section Shapes.

Variable interpolate :
  JSValue → JSValue → gmap string JSValue → result (JSValue → result JSValue).

Lemma immediate_args x ins rest :
  let args := VNum x :: VArr ins :: rest in
  useImmediate args = true ∧ inputValue args = VNum x ∧
  inputRange args = VArr ins ∧ outputRange args = arg rest 0 ∧
  options args = arg rest 1.
Proof. by destruct rest as [|o [|? ?]]. Qed.

Lemma curried_args ins rest :
  let args := VArr ins :: rest in
  useImmediate args = false ∧ inputRange args = VArr ins ∧
  outputRange args = arg rest 0 ∧ options args = arg rest 1.
Proof. by destruct rest as [|o [|? ?]]. Qed.

(** C8. The two call shapes agree: for an input number [x], an input range
    [ins] (an array) and whatever follows it (the output range, and the options
    or none), [transform(ins, ...)] applied to [x] gives what
    [transform(x, ins, ...)] gives, a value or an exception alike; and the
    shape is chosen by [Array.isArray] of the first argument. *)
Theorem transform_shapes_agree (x : float) (ins rest : list JSValue) :
  (transform interpolate (VArr ins :: rest) ≫= applied (VNum x))
    = transform interpolate (VNum x :: VArr ins :: rest)
  ∧ (∀ args, useImmediate args = negb (isArray (arg args 0)))
  ∧ (∀ args f, useImmediate args = false →
       transform interpolate args = Ok (Value f) → False)
  ∧ (∀ args f, useImmediate args = true →
       transform interpolate args = Ok (Interpolator f) → False).
Proof.
  split; [|split; [done|split]].
  - unfold transform.
    destruct (immediate_args x ins rest) as (-> & -> & -> & -> & ->).
    destruct (curried_args ins rest) as (-> & -> & -> & ->).
    destruct (first (arg rest 0)) as [o0|]; [|done]; simpl.
    destruct (getMixer o0) as [m|]; [|done]; simpl.
    by destruct (interpolate _ _ _).
  - intros args f Hshape. unfold transform. rewrite Hshape.
    destruct (first _); [|done]; simpl.
    destruct (getMixer _); [|done]; simpl.
    by destruct (interpolate _ _ _).
  - intros args f Hshape. unfold transform. rewrite Hshape.
    destruct (first _); [|done]; simpl.
    destruct (getMixer _); [|done]; simpl.
    destruct (interpolate _ _ _) as [i|]; [|done]; simpl.
    by destruct (i _).
Qed.

End Shapes.

Section Mixer.

Variable interpolate :
  JSValue → JSValue → gmap string JSValue → result (JSValue → result JSValue).

Lemma getMixer_null : getMixer VNull = Throw TypeError.
Proof. reflexivity. Qed.

Lemma getMixer_custom props :
  truthy (get props "mix") = true → getMixer (VObj props) = Ok (get props "mix").
Proof. intros H. unfold getMixer; simpl. by rewrite H. Qed.

Lemma getMixer_other v :
  v ≠ VNull →
  (∀ props, v = VObj props → truthy (get props "mix") = false) →
  getMixer v = Ok VUndefined.
Proof.
  intros Hnull Hmix. destruct v; try done.
  unfold getMixer; simpl. by rewrite (Hmix props eq_refl).
Qed.

(** C10. A call of [transform] whose output range starts with [null] raises
    a [TypeError] and returns nothing, in either call shape and whatever the
    interpolation library is: [typeof null] is ["object"], so the detection
    of the mixer reads [null.mix].  The detected mixer is the [mix] property
    when the first output element is an object (not [null]) whose [mix] is
    truthy, and [undefined] for every other first element. *)
Theorem transform_null_output_raises (args outs : list JSValue) :
  outputRange args = VArr (VNull :: outs) →
  transform interpolate args = Throw TypeError
  ∧ getMixer VNull = Throw TypeError
  ∧ (∀ props, truthy (get props "mix") = true →
       getMixer (VObj props) = Ok (get props "mix")
       ∧ get props "mix" ≠ VUndefined)
  ∧ (∀ v, v ≠ VNull →
       (∀ props, v = VObj props → truthy (get props "mix") = false) →
       getMixer v = Ok VUndefined).
Proof.
  intros Hout. split; [|split; [|split]].
  - unfold transform. by rewrite Hout.
  - apply getMixer_null.
  - intros props H. split; [by apply getMixer_custom|].
    intros Hu. by rewrite Hu in H.
  - apply getMixer_other.
Qed.

End Mixer.

Lemma transform_null_output_raises_witness :
  outputRange [VNum 50; range [0; 100]%float; VArr [VNull; VNum 1]]
    = VArr [VNull; VNum 1]
  ∧ transform interpolateNumbers
      [VNum 50; range [0; 100]%float; VArr [VNull; VNum 1]] = Throw TypeError
  ∧ transform interpolateNumbers
      [range [0; 100]%float; VArr [VNull; VNum 1]] = Throw TypeError.
Proof.
  split; [reflexivity|]. split.
  - exact (proj1 (transform_null_output_raises interpolateNumbers
      [VNum 50; range [0; 100]%float; VArr [VNull; VNum 1]] [VNum 1] eq_refl)).
  - exact (proj1 (transform_null_output_raises interpolateNumbers
      [range [0; 100]%float; VArr [VNull; VNum 1]] [VNum 1] eq_refl)).
Defined.

(** C9. With the interpolation modelled as the specification describes it:
    [transform(50, [0,100], [0,1])] is [0.5];
    [transform(150, [0,100], [0,1], {clamp: true})] is [1];
    [transform(150, [0,100], [0,1], {clamp: false})] is [1.5];
    and an omitted [clamp] is [true]: without options 150 gives [1] and -50
    gives [0], and for every input and every pair of ranges the call without
    options is the call with [{clamp: true}]. *)
Theorem transform_examples :
  let ins := range [0; 100]%float in
  let outs := range [0; 1]%float in
  let clamp b := VObj {[ "clamp" := VBool b ]} in
  transform interpolateNumbers [VNum 50; ins; outs] = Ok (Value (VNum 0.5))
  ∧ transform interpolateNumbers [VNum 150; ins; outs; clamp true]
      = Ok (Value (VNum 1))
  ∧ transform interpolateNumbers [VNum 150; ins; outs; clamp false]
      = Ok (Value (VNum 1.5))
  ∧ transform interpolateNumbers [VNum 150; ins; outs] = Ok (Value (VNum 1))
  ∧ transform interpolateNumbers [VNum (-50); ins; outs] = Ok (Value (VNum 0))
  ∧ (∀ x ins' outs',
       transform interpolateNumbers [VNum x; VArr ins'; outs']
       = transform interpolateNumbers [VNum x; VArr ins'; outs'; clamp true]).
Proof.
  do 5 (split; [vm_compute; reflexivity|]).
  intros x ins' outs'. unfold transform.
  destruct (immediate_args x ins' [outs']) as (-> & -> & -> & -> & ->).
  destruct (immediate_args x ins' [outs'; VObj {[ "clamp" := VBool true ]}])
    as (-> & -> & -> & -> & ->).
  destruct (first _) as [o0|]; [|done]; simpl.
  destruct (getMixer o0) as [m|]; [|done]; simpl.
  reflexivity.
Qed.

End TransformProperties.

(** ** Properties of [createMotionValueAnimation] *)

Module AnimationProperties.
Import Animation Samples.

(** A number that is falsy, that is 0, -0 or NaN, is the same in seconds and
    in milliseconds. *)
Lemma falsy_number_scales (s : float) :
  truthy (VNum s) = false → PrimFloat.mul s 1000 = s.
Proof.
  intros H%negb_false_iff. apply Prim2SF_inj. rewrite FloatAxioms.mul_spec.
  unfold PrimFloat.is_nan in H. rewrite !FloatAxioms.eqb_spec in H.
  destruct (Prim2SF s) as [sg|sg| |sg m e] eqn:E.
  - destruct sg; vm_compute; reflexivity.
  - destruct sg; vm_compute in H; discriminate.
  - vm_compute; reflexivity.
  - exfalso. replace (Prim2SF 0) with (S754_zero false) in H by reflexivity.
    unfold SFeqb, SFcompare in H.
    destruct sg; simpl in H;
      rewrite Pos.compare_cont_refl, Z.compare_refl in H; discriminate.
Qed.

Lemma get_lookup (o : gmap string JSValue) k v : o !! k = Some v → get o k = v.
Proof. unfold get. by intros ->. Qed.

Lemma get_absent (o : gmap string JSValue) k : o !! k = None → get o k = VUndefined.
Proof. unfold get. by intros ->. Qed.

Section Selector.

Variable getValueTransition : gmap string JSValue → string → JSValue.
Variable getKeyframes :
  MotionValue → string → JSValue → gmap string JSValue → JSValue.
Variable isTransitionDefined : gmap string JSValue → bool.
Variable getDefaultTransition :
  string → gmap string JSValue → gmap string JSValue.
Variable env : Environment.

Abbreviation start :=
  (createMotionValueAnimationFor getValueTransition getKeyframes
     isTransitionDefined getDefaultTransition env).
Abbreviation timeline :=
  (timelineOptions isTransitionDefined getDefaultTransition).
Abbreviation overlay :=
  (withDefaultTransition isTransitionDefined getDefaultTransition).

(** The path a start took, read off what it returned. *)
Lemma start_inversion accelerated valueName value target transition onComplete r :
  start accelerated valueName value target transition onComplete = Some r →
  let t := default ∅ transition in
  let vt := valueTransitionOf getValueTransition t valueName in
  ∃ elapsed,
    elapsedOf t (delayOf vt t) = Some elapsed ∧
    let initial :=
      initialOptions (getKeyframes value valueName target vt) value elapsed vt
        onComplete in
    let instant :=
      instantAnimationState_current env || is_false (get vt "type") in
    match r with
    | InstantAnimation o => instant = true ∧ o = initial
    | Inertia o =>
        instant = false ∧ is_string "inertia" (get vt "type") = true ∧ o = initial
    | AcceleratedAnimation =>
        instant = false ∧ is_string "inertia" (get vt "type") = false ∧
        ∃ o, timeline valueName vt initial = Some o ∧
             canAccelerateAnimation env accelerated valueName value o = true
    | Animate o =>
        instant = false ∧ is_string "inertia" (get vt "type") = false ∧
        timeline valueName vt initial = Some o ∧
        canAccelerateAnimation env accelerated valueName value o = false
    end.
Proof.
  intros H t vt. unfold createMotionValueAnimationFor in H.
  fold t vt in H.
  destruct (elapsedOf t (delayOf vt t)) as [elapsed|] eqn:He; [|done].
  exists elapsed. split; [done|]. simpl in H.
  destruct (instantAnimationState_current env || is_false (get vt "type")) eqn:Hi.
  { by simplify_eq. }
  destruct (is_string "inertia" (get vt "type")) eqn:Hs.
  { by simplify_eq. }
  destruct (timeline valueName vt _) as [o|] eqn:Ht; [|done]. simpl in H.
  destruct (canAccelerateAnimation env accelerated valueName value o) eqn:Hc;
    simplify_eq; eauto.
Qed.

Lemma inMilliseconds_fields k options converted :
  inMilliseconds k options = Some converted →
  (∀ j, j ≠ k → converted !! j = options !! j)
  ∧ (options !! k = None → converted !! k = None)
  ∧ (∀ s, get options k = VNum s → get converted k = VNum (PrimFloat.mul s 1000)).
Proof.
  unfold inMilliseconds. destruct (truthy (get options k)) eqn:Htruthy.
  - destruct (secondsToMilliseconds (get options k)) as [ms|] eqn:Hms; [|done].
    intros [= <-]. split; [|split].
    + intros j Hj. by rewrite lookup_insert_ne.
    + intros Hk. by rewrite (get_absent _ _ Hk) in Htruthy.
    + intros s Hs. rewrite Hs in Hms.
      unfold secondsToMilliseconds in Hms. simpl in Hms. simplify_eq.
      unfold get. by rewrite lookup_insert_eq.
  - intros [= <-]. split; [done|split; [done|]].
    intros s Hs. rewrite Hs in Htruthy |- *.
    by rewrite falsy_number_scales.
Qed.

Lemma timeline_fields valueName vt options delivered :
  timeline valueName vt options = Some delivered →
  let laid := overlay valueName vt options in
  (∀ j, j ≠ "duration" → j ≠ "repeatDelay" → delivered !! j = laid !! j)
  ∧ (laid !! "duration" = None → delivered !! "duration" = None)
  ∧ (laid !! "repeatDelay" = None → delivered !! "repeatDelay" = None)
  ∧ inMillisecondsIn laid delivered "duration"
  ∧ inMillisecondsIn laid delivered "repeatDelay".
Proof.
  intros H laid. unfold timelineOptions in H. fold laid in H.
  destruct (inMilliseconds "duration" laid) as [o1|] eqn:H1; [|done].
  simpl in H.
  destruct (inMilliseconds_fields _ _ _ H1) as (Hd1 & Hd2 & Hd3).
  destruct (inMilliseconds_fields _ _ _ H) as (Hr1 & Hr2 & Hr3).
  split; [|split; [|split; [|split]]].
  - intros j ??. rewrite Hr1, Hd1; done.
  - intros Hn. rewrite Hr1; [auto|done].
  - intros Hn. apply Hr2. rewrite Hd1; done.
  - intros s Hs. unfold get. rewrite Hr1; [|done]. by apply Hd3.
  - intros s Hs. apply Hr3. unfold get. rewrite Hd1; done.
Qed.

(** C7. The accelerated strategy is started only if the value name is an
    accelerated value, the probe reports the backend supported, the value has
    an owner, the owner has no [onUpdate] prop, and the options ask for no
    repeat: so a repeat, an [onUpdate] handler of the owner or an unsupported
    backend each exclude it.  With the set of the file, which is empty, it is
    started for no value name. *)
Theorem accelerated_only_when_eligible :
  (∀ accelerated valueName value target transition onComplete,
     start accelerated valueName value target transition onComplete
       = Some AcceleratedAnimation →
     let t := default ∅ transition in
     let vt := valueTransitionOf getValueTransition t valueName in
     valueName ∈ accelerated
     ∧ supports_waapi env = true
     ∧ (∃ element, owner value = Some element
          ∧ truthy (get (getProps element) "onUpdate") = false)
     ∧ (∃ elapsed options,
          elapsedOf t (delayOf vt t) = Some elapsed
          ∧ timeline valueName vt
              (initialOptions (getKeyframes value valueName target vt) value
                 elapsed vt onComplete) = Some options
          ∧ truthy (get options "repeat") = false))
  ∧ (∀ valueName value target transition onComplete,
       createMotionValueAnimation getValueTransition getKeyframes
         isTransitionDefined getDefaultTransition env
         valueName value target transition onComplete
       ≠ Some AcceleratedAnimation).
Proof.
  assert (∀ accelerated valueName value options,
    canAccelerateAnimation env accelerated valueName value options = true →
    valueName ∈ accelerated ∧ supports_waapi env = true
    ∧ (∃ element, owner value = Some element
         ∧ truthy (get (getProps element) "onUpdate") = false)
    ∧ truthy (get options "repeat") = false) as Hcan.
  { intros accelerated valueName value options. unfold canAccelerateAnimation.
    rewrite !andb_true_iff, bool_decide_eq_true, negb_true_iff.
    intros [[[Hin Hw] Ho] Hr]. repeat split; try done.
    destruct (owner value) as [element|]; [|done].
    exists element. by rewrite negb_true_iff in Ho. }
  split.
  - intros accelerated valueName value target transition onComplete H t vt.
    destruct (start_inversion _ _ _ _ _ _ _ H) as (elapsed & He & _ & _ & o & Ho & Hc).
    destruct (Hcan _ _ _ _ Hc) as (? & ? & ? & ?).
    repeat split; try done. by exists elapsed, o.
  - intros valueName value target transition onComplete H.
    unfold createMotionValueAnimation in H.
    destruct (start_inversion _ _ _ _ _ _ _ H) as (elapsed & He & _ & _ & o & Ho & Hc).
    destruct (Hcan _ _ _ _ Hc) as (Hin & _).
    unfold acceleratedValues in Hin. set_solver.
Qed.


(** C5 (amended). In the options given to the main-thread timeline strategy,
    [duration] and [repeatDelay], when present, are the values of the options
    in seconds multiplied by 1000, and every other field is given as it is in
    the options, not converted: so the [delay] of the transition of the
    value, when the default transition supplies none, is given with the value
    it has there, in seconds. *)
Theorem timeline_times accelerated valueName value target transition onComplete
    delivered :
  start accelerated valueName value target transition onComplete
    = Some (Animate delivered) →
  let t := default ∅ transition in
  let vt := valueTransitionOf getValueTransition t valueName in
  ∃ elapsed,
    elapsedOf t (delayOf vt t) = Some elapsed ∧
    let initial :=
      initialOptions (getKeyframes value valueName target vt) value elapsed vt
        onComplete in
    let laid := overlay valueName vt initial in
    inMillisecondsIn laid delivered "duration"
    ∧ inMillisecondsIn laid delivered "repeatDelay"
    ∧ (laid !! "duration" = None → delivered !! "duration" = None)
    ∧ (laid !! "repeatDelay" = None → delivered !! "repeatDelay" = None)
    ∧ (∀ k, k ≠ "duration" → k ≠ "repeatDelay" → delivered !! k = laid !! k)
    ∧ delivered !! "delay" = laid !! "delay"
    ∧ (isTransitionDefined vt = true
       ∨ getDefaultTransition valueName initial !! "delay" = None →
       delivered !! "delay" = vt !! "delay").
Proof.
  intros H t vt.
  destruct (start_inversion _ _ _ _ _ _ _ H) as (elapsed & He & _ & _ & Ht & _).
  fold t vt in He, Ht. exists elapsed. split; [done|]. intros initial laid.
  destruct (timeline_fields _ _ _ _ Ht) as (Hk & Hd & Hr & Hdm & Hrm).
  fold initial laid in Hk, Hd, Hr, Hdm, Hrm.
  do 5 (split; [done|]). split; [by apply Hk|].
  intros Hdelay. rewrite Hk by done.
  assert (laid !! "delay" = initial !! "delay") as ->.
  { unfold laid, withDefaultTransition.
    destruct (isTransitionDefined vt); simpl; [done|].
    destruct Hdelay as [?|Hnone]; [done|]. by apply lookup_union_r. }
  unfold initial, initialOptions. rewrite lookup_union.
  by destruct (vt !! "delay").
Qed.

End Selector.

(** *** What the object literal of lines 52-65 holds *)

Section InitialOptions.

Variables (keyframes elapsed onComplete : JSValue) (value : MotionValue).
Variable vt : gmap string JSValue.

Abbreviation initial := (initialOptions keyframes value elapsed vt onComplete).

(** A field of the transition of the value is the field of the options. *)
Lemma initialOptions_transition_field k v :
  vt !! k = Some v → initial !! k = Some v.
Proof. intros H. unfold initialOptions. by apply lookup_union_Some_l. Qed.


Lemma initialOptions_onUpdate v :
  vt !! "onUpdate" = None →
  call (get initial "onUpdate") [v] = ([ValueSet v], None).
Proof.
  intros H. unfold get at 1. unfold initialOptions. rewrite lookup_union_r by done.
  replace (_ !! "onUpdate") with (Some (VOnUpdate (get vt "onUpdate")))
    by (vm_compute; reflexivity).
  by rewrite (get_absent _ _ H).
Qed.

Lemma initialOptions_onComplete :
  vt !! "onComplete" = None →
  call (get initial "onComplete") [] = andThen (call onComplete []) nothing.
Proof.
  intros H. unfold get at 1. unfold initialOptions. rewrite lookup_union_r by done.
  replace (_ !! "onComplete")
    with (Some (VOnComplete onComplete (get vt "onComplete")))
    by (vm_compute; reflexivity).
  by rewrite (get_absent _ _ H).
Qed.

End InitialOptions.

(** The closures of the literal do what they are written to do: the update
    is written to the value and then forwarded, and the completion of the
    caller runs before that of the user. *)
Lemma default_closures v onComplete user :
  call (VOnUpdate (VFun user)) [v] = ([ValueSet v; Called user [v]], None)
  ∧ call (VOnComplete (VFun onComplete) (VFun user)) []
    = ([Called onComplete []; Called user []], None).
Proof. done. Qed.

(** With the merge of the specification, a field of the entry of the value
    is the field of its transition, whatever the root transition has. *)
Lemma override_field_wins (transition override : gmap string JSValue) key k v :
  transition !! key = Some (VObj override) →
  override !! k = Some v →
  valueTransitionOf Collaborators.getValueTransition transition key !! k = Some v.
Proof.
  intros Ht Hk. unfold valueTransitionOf, Collaborators.getValueTransition.
  rewrite Ht. simpl. by apply lookup_union_Some_l.
Qed.

(** The delay is the first truthy one of the delay of the value, the delay of
    the root, and 0. *)
Lemma delayOf_cases (vt transition : gmap string JSValue) :
  delayOf vt transition =
    if truthy (get vt "delay") then get vt "delay"
    else if truthy (get transition "delay") then get transition "delay"
    else VNum 0.
Proof.
  unfold delayOf, js_or.
  destruct (truthy (get vt "delay")) eqn:Hv; rewrite ?Hv; [done|].
  by destruct (truthy (get transition "delay")) eqn:Hr; rewrite ?Hr.
Qed.


(** The instant strategy as it is called with the closures of the literal:
    the last keyframe is written to the value, and the completion of the
    caller follows. *)
Lemma instant_run_of_defaults keyframes value elapsed vt onComplete :
  vt !! "keyframes" = None → vt !! "onUpdate" = None → vt !! "onComplete" = None →
  createInstantAnimation
    (initialOptions (VArr keyframes) value elapsed vt onComplete)
  = andThen ([ValueSet (default VUndefined (last keyframes))], None)
      (andThen (call onComplete []) nothing).
Proof.
  intros Hk Hu Hc. unfold createInstantAnimation.
  rewrite initialOptions_onUpdate, initialOptions_onComplete by done.
  replace (get (initialOptions _ _ _ _ _) "keyframes") with (VArr keyframes); [done|].
  unfold get, initialOptions. rewrite lookup_union_r by done.
  vm_compute. reflexivity.
Qed.

(** The instant strategy is the one started when the flag of instant
    animations is set or the transition of the value has [type: false], with
    the options of the literal; [canAnimate] is the constant [true]. *)
Lemma instant_selected getValueTransition getKeyframes isTransitionDefined
    getDefaultTransition env accelerated valueName value target transition
    onComplete elapsed :
  let t := default ∅ transition in
  let vt := valueTransitionOf getValueTransition t valueName in
  instantAnimationState_current env = true ∨ get vt "type" = VBool false →
  elapsedOf t (delayOf vt t) = Some elapsed →
  createMotionValueAnimationFor getValueTransition getKeyframes
    isTransitionDefined getDefaultTransition env accelerated valueName value
    target transition onComplete
  = Some (InstantAnimation
      (initialOptions (getKeyframes value valueName target vt) value elapsed vt
         onComplete)).
Proof.
  intros t vt Hi He. unfold createMotionValueAnimationFor. fold t vt.
  rewrite He. simpl.
  by destruct Hi as [-> | ->]; [|rewrite orb_true_r].
Qed.

Lemma numbers_differ (a b : float) :
  PrimFloat.eqb a a = true → PrimFloat.eqb a b = false → VNum a ≠ VNum b.
Proof. intros Ha Hb [= ->]. congruence. Qed.

(** C1. A transition with [onUpdate] and [onComplete] of its own: the
    options given to the strategy hold these two functions and not the
    closures of the literal, so an update calls the function of the user and
    writes nothing to the motion value, and the completion calls the function
    of the user and not the callback of the caller. *)
Theorem user_callbacks_replace_closures :
  let transition : gmap string JSValue :=
    {[ "onUpdate" := VFun "userOnUpdate";
       "onComplete" := VFun "userOnComplete" ]} in
  ∃ options,
    Collaborators.createMotionValueAnimation browser "opacity" atRest (VNum 1)
      (Some transition) (VFun "done") = Some (Animate options)
    ∧ get options "onUpdate" = VFun "userOnUpdate"
    ∧ get options "onComplete" = VFun "userOnComplete"
    ∧ call (get options "onUpdate") [VNum 0.5]
      = ([Called "userOnUpdate" [VNum 0.5]], None)
    ∧ call (get options "onComplete") [] = ([Called "userOnComplete" []], None).
Proof.
  eexists. split; [vm_compute; reflexivity|].
  repeat split; vm_compute; reflexivity.
Qed.

(** C2. A delay of 0 for the value [x] under a root delay of 0.5: the
    transition of the value has the delay 0, and the delay that is used is
    the 0.5 of the root, so the elapsed time starts at -500. *)
Theorem zero_delay_falls_back_to_root :
  let transition : gmap string JSValue :=
    {[ "delay" := VNum 0.5; "x" := VObj {[ "delay" := VNum 0 ]} ]} in
  let vt := valueTransitionOf Collaborators.getValueTransition transition "x" in
  vt !! "delay" = Some (VNum 0)
  ∧ delayOf vt transition = VNum 0.5
  ∧ ∃ options,
      Collaborators.createMotionValueAnimation browser "x" atRest (VNum 1)
        (Some transition) (VFun "done") = Some (Animate options)
      ∧ get options "elapsed" = VNum (-500).
Proof.
  split; [vm_compute; reflexivity|]. split; [vm_compute; reflexivity|].
  eexists. split; vm_compute; reflexivity.
Qed.


(** C4. A transition with [type: false] and callbacks of its own: the
    instant strategy is started, and what it runs is the [onUpdate] of the
    user with the final keyframe and the [onComplete] of the user; the final
    keyframe is not written to the motion value and the completion callback
    of the caller is not invoked. *)
Theorem instant_runs_user_callbacks_only :
  let transition : gmap string JSValue :=
    {[ "type" := VBool false;
       "onUpdate" := VFun "userOnUpdate";
       "onComplete" := VFun "userOnComplete" ]} in
  ∃ options,
    Collaborators.createMotionValueAnimation browser "opacity" atRest (VNum 1)
      (Some transition) (VFun "done") = Some (InstantAnimation options)
    ∧ createInstantAnimation options
      = ([Called "userOnUpdate" [VNum 1]; Called "userOnComplete" []], None).
Proof. eexists. split; vm_compute; reflexivity. Qed.

(** C5, as stated, fails: the delay of 0.2 seconds is in the options of the
    strategy as 0.2, beside the duration of 1 second that became 1000. *)
Lemma delay_delivered_in_seconds :
  let transition : gmap string JSValue :=
    {[ "delay" := VNum 0.2; "duration" := VNum 1 ]} in
  ∃ delivered,
    Collaborators.createMotionValueAnimation browser "opacity" atRest (VNum 1)
      (Some transition) (VFun "done") = Some (Animate delivered)
    ∧ get delivered "duration" = VNum 1000
    ∧ get delivered "delay" = VNum 0.2
    ∧ ¬ inMillisecondsIn transition delivered "delay".
Proof.
  eexists. split; [vm_compute; reflexivity|].
  split; [vm_compute; reflexivity|]. split; [vm_compute; reflexivity|].
  intros Hms. specialize (Hms 0.2%float ltac:(vm_compute; reflexivity)).
  vm_compute in Hms. by apply (numbers_differ 0.2 200) in Hms.
Qed.

Lemma timeline_times_witness :
  Collaborators.createMotionValueAnimation browser "opacity" atRest (VNum 1)
    (Some {[ "delay" := VNum 0.2; "duration" := VNum 1 ]}) (VFun "done")
  = Some (Animate tweenOptions)
  ∧ tweenOptions !! "delay" = Some (VNum 0.2)
  ∧ get tweenOptions "duration" = VNum 1000.
Proof.
  assert (Collaborators.createMotionValueAnimation browser "opacity" atRest
    (VNum 1) (Some {[ "delay" := VNum 0.2; "duration" := VNum 1 ]}) (VFun "done")
    = Some (Animate tweenOptions)) as Hstart by (vm_compute; reflexivity).
  split; [exact Hstart|].
  destruct (timeline_times Collaborators.getValueTransition
    Collaborators.getKeyframes Collaborators.isTransitionDefined
    Collaborators.getDefaultTransition browser acceleratedValues "opacity"
    atRest (VNum 1) (Some {[ "delay" := VNum 0.2; "duration" := VNum 1 ]})
    (VFun "done") tweenOptions Hstart)
    as (elapsed & He & Hd & _ & _ & _ & _ & _ & Hdelay).
  split.
  - rewrite Hdelay by (left; vm_compute; reflexivity). vm_compute. reflexivity.
  - rewrite (Hd 1%float) by (vm_compute; reflexivity).
    vm_compute. reflexivity.
Defined.

(** C6. The elapsed time 500 with the delay 0.2: the elapsed time that is
    computed is 300, and the one in the options of the strategy is the 500
    of the transition, which the spread wrote over it. *)
Theorem elapsed_replaced_by_transition_field :
  let transition : gmap string JSValue :=
    {[ "elapsed" := VNum 500; "delay" := VNum 0.2 ]} in
  let vt :=
    valueTransitionOf Collaborators.getValueTransition transition "opacity" in
  elapsedOf transition (delayOf vt transition) = Some (VNum 300)
  ∧ ∃ options,
      Collaborators.createMotionValueAnimation browser "opacity" atRest (VNum 1)
        (Some transition) (VFun "done") = Some (Animate options)
      ∧ get options "elapsed" = VNum 500.
Proof.
  split; [vm_compute; reflexivity|].
  eexists. split; vm_compute; reflexivity.
Qed.

Lemma accelerated_only_when_eligible_witness :
  createMotionValueAnimationFor Collaborators.getValueTransition
    Collaborators.getKeyframes Collaborators.isTransitionDefined
    Collaborators.getDefaultTransition browser opacityOnly "opacity" owned
    (VNum 1) None (VFun "done") = Some AcceleratedAnimation
  ∧ "opacity" ∈ opacityOnly
  ∧ supports_waapi browser = true.
Proof.
  assert (createMotionValueAnimationFor Collaborators.getValueTransition
    Collaborators.getKeyframes Collaborators.isTransitionDefined
    Collaborators.getDefaultTransition browser opacityOnly "opacity" owned
    (VNum 1) None (VFun "done") = Some AcceleratedAnimation) as Hstart
    by (vm_compute; reflexivity).
  split; [exact Hstart|].
  destruct (proj1 (accelerated_only_when_eligible
    Collaborators.getValueTransition Collaborators.getKeyframes
    Collaborators.isTransitionDefined Collaborators.getDefaultTransition
    browser) opacityOnly "opacity" owned (VNum 1) None (VFun "done") Hstart)
    as (Hin & Hw & _).
  by split.
Defined.

End AnimationProperties.

(** ** [transform]: missing arguments and the options given to the library *)

Module TransformEdges.
Import Transform Popmotion Samples.

(** What [transform] does with the interpolator of the library. *)
Abbreviation finish args :=
  (λ i : JSValue → result JSValue,
     if useImmediate args then Value <$> i (inputValue args)
     else Ok (Interpolator i)).

Section Library.

Variable interpolate :
  JSValue → JSValue → gmap string JSValue → result (JSValue → result JSValue).

(** X1. A call that stops before the output range raises a [TypeError]: at
    most two arguments in the immediate shape, at most one in the curried
    shape, none at all.  The output range is then [undefined], and its first
    element is read before the library is called. *)
Theorem transform_without_output_range (args : list JSValue) :
  (length args ≤ if useImmediate args then 2 else 1)%nat →
  transform interpolate args = Throw TypeError.
Proof.
  intros Hlen. unfold transform.
  replace (outputRange args) with VUndefined; [done|].
  unfold outputRange, argOffset.
  destruct args as [|a [|b [|c rest]]]; try done.
  - by destruct (useImmediate [a]).
  - destruct (useImmediate [a; b]) eqn:Hshape; [done|]. simpl in Hlen. lia.
  - destruct (useImmediate (a :: b :: c :: rest)); simpl in Hlen; lia.
Qed.

(** X2. The library is called with the two ranges as they were given and
    with the options of the caller; the mixer that was detected is added only
    when the options have no [mixer] property of their own.  A [mixer] in the
    options, an explicit [undefined] included, is the one the library gets. *)
Theorem transform_mixer_precedence (args : list JSValue) (o0 detected : JSValue) :
  first (outputRange args) = Ok o0 →
  getMixer o0 = Ok detected →
  let given := own_props (options args) in
  transform interpolate args =
    interpolate (inputRange args) (outputRange args)
      (match given !! "mixer" with
       | Some _ => given
       | None => <["mixer" := detected]> given
       end)
    ≫= finish args.
Proof.
  intros Hfirst Hmixer given. unfold transform. rewrite Hfirst. simpl.
  rewrite Hmixer. simpl. fold given.
  replace (given ∪ {[ "mixer" := detected ]})
    with (match given !! "mixer" with
          | Some _ => given
          | None => <["mixer" := detected]> given
          end); [done|].
  destruct (given !! "mixer") as [m|] eqn:Hgiven.
  - apply map_eq. intros k. rewrite lookup_union.
    destruct (decide (k = "mixer")) as [->|Hk].
    + by rewrite Hgiven, lookup_singleton_eq.
    + rewrite lookup_singleton_ne by done. by destruct (given !! k).
  - by rewrite insert_union_singleton_r.
Qed.

(** X3. Options that carry no property ([undefined], [null], a number, a
    boolean, a function) are the same as no options, in both call shapes, and
    what follows the options is not read. *)
Theorem transform_options_without_properties (x : float) (ins : list JSValue)
    (outs o : JSValue) (more : list JSValue) :
  own_props o = ∅ →
  transform interpolate (VNum x :: VArr ins :: outs :: o :: more)
    = transform interpolate [VNum x; VArr ins; outs]
  ∧ transform interpolate (VArr ins :: outs :: o :: more)
    = transform interpolate [VArr ins; outs].
Proof.
  intros Ho. unfold transform. split.
  - destruct (TransformProperties.immediate_args x ins (outs :: o :: more))
      as (-> & -> & -> & -> & ->).
    destruct (TransformProperties.immediate_args x ins [outs])
      as (-> & -> & -> & -> & ->).
    change (arg (outs :: o :: more) 1) with o.
    change (arg (outs :: o :: more) 0) with outs.
    by rewrite Ho.
  - destruct (TransformProperties.curried_args ins (outs :: o :: more))
      as (-> & -> & -> & ->).
    destruct (TransformProperties.curried_args ins [outs]) as (-> & -> & -> & ->).
    change (arg (outs :: o :: more) 1) with o.
    change (arg (outs :: o :: more) 0) with outs.
    by rewrite Ho.
Qed.

End Library.

Lemma transform_without_output_range_witness :
  transform interpolateNumbers [VNum 50; range [0; 100]%float] = Throw TypeError
  ∧ transform interpolateNumbers [range [0; 100]%float] = Throw TypeError
  ∧ transform interpolateNumbers [] = Throw TypeError.
Proof.
  split; [|split]; apply transform_without_output_range; simpl; lia.
Defined.

Lemma transform_mixer_precedence_witness :
  getMixer (VObj {[ "mix" := VFun "mixColor" ]}) = Ok (VFun "mixColor")
  ∧ transform interpolateNumbers mixableArgs
    = interpolateNumbers (inputRange mixableArgs) (outputRange mixableArgs)
        {[ "mixer" := VUndefined ]}
      ≫= finish mixableArgs.
Proof.
  split; [reflexivity|].
  exact (transform_mixer_precedence interpolateNumbers mixableArgs
    (VObj {[ "mix" := VFun "mixColor" ]}) (VFun "mixColor") eq_refl eq_refl).
Defined.

Lemma transform_options_without_properties_witness :
  transform interpolateNumbers
    [VNum 150; range [0; 100]%float; range [0; 1]%float; VNull; VBool true]
  = transform interpolateNumbers
      [VNum 150; range [0; 100]%float; range [0; 1]%float].
Proof.
  exact (proj1 (transform_options_without_properties interpolateNumbers 150
    [VNum 0; VNum 100] (range [0; 1]%float) VNull [VBool true] eq_refl)).
Defined.

End TransformEdges.

(** ** [createMotionValueAnimation]: which strategy, with which options *)

Module SelectorDecisions.
Import Animation Samples AnimationProperties.

Lemma is_false_iff v : is_false v = true ↔ v = VBool false.
Proof. destruct v as [| |[|]| | | | | | |]; simpl; split; by intros. Qed.

Lemma is_string_iff s v : is_string s v = true ↔ v = VStr s.
Proof.
  destruct v; simpl; try (split; by intros).
  rewrite String.eqb_eq. split; congruence.
Qed.

Lemma andThen_nothing (r : Run) : andThen r nothing = r.
Proof. destruct r as [es [e|]]; simpl; [done|]. by rewrite app_nil_r. Qed.

Section Selector.

Variable getValueTransition : gmap string JSValue → string → JSValue.
Variable getKeyframes :
  MotionValue → string → JSValue → gmap string JSValue → JSValue.
Variable isTransitionDefined : gmap string JSValue → bool.
Variable getDefaultTransition :
  string → gmap string JSValue → gmap string JSValue.
Variable env : Environment.

Abbreviation start :=
  (createMotionValueAnimationFor getValueTransition getKeyframes
     isTransitionDefined getDefaultTransition env).
Abbreviation timeline :=
  (timelineOptions isTransitionDefined getDefaultTransition).

Variables (accelerated : gset string) (valueName : string).
Variables (value : MotionValue) (target : JSValue).
Variables (transition : option (gmap string JSValue)) (onComplete : JSValue).

Abbreviation t := (default ∅ transition).
Abbreviation vt := (valueTransitionOf getValueTransition t valueName).
Abbreviation literal elapsed :=
  (initialOptions (getKeyframes value valueName target vt) value elapsed vt
     onComplete).

(** X4. The instant strategy is started exactly when the flag of instant
    animations is set or the [type] of the transition of the value is the
    boolean [false]: another falsy [type] (0, [null], [""], none) does not
    start it, and with the flag an inertia transition is instant as well.  Its
    options are the literal as it is: no default transition, and [duration]
    and [repeatDelay] in seconds. *)
Theorem instant_exactly_when (o : gmap string JSValue) :
  start accelerated valueName value target transition onComplete
    = Some (InstantAnimation o)
  ↔ (instantAnimationState_current env = true ∨ get vt "type" = VBool false)
    ∧ ∃ elapsed, elapsedOf t (delayOf vt t) = Some elapsed ∧ o = literal elapsed.
Proof.
  split.
  - intros H.
    destruct (start_inversion _ _ _ _ _ _ _ _ _ _ _ _ H) as (elapsed & He & Hi & ->).
    split; [|by exists elapsed].
    apply orb_true_iff in Hi as [Hi|Hi]; [by left|right]. by apply is_false_iff.
  - intros [Hi (elapsed & He & ->)]. by apply instant_selected.
Qed.

(** X5. The inertia strategy is started exactly when the flag of instant
    animations is not set and the [type] of the transition of the value is
    ["inertia"].  Its options are the literal as it is: the defaults of the
    value name are not laid over them and no time is converted, so a
    [duration] of the transition reaches it in seconds. *)
Theorem inertia_exactly_when (o : gmap string JSValue) :
  start accelerated valueName value target transition onComplete
    = Some (Inertia o)
  ↔ instantAnimationState_current env = false
    ∧ get vt "type" = VStr "inertia"
    ∧ ∃ elapsed, elapsedOf t (delayOf vt t) = Some elapsed ∧ o = literal elapsed.
Proof.
  split.
  - intros H.
    destruct (start_inversion _ _ _ _ _ _ _ _ _ _ _ _ H)
      as (elapsed & He & Hi & Hs & ->).
    apply orb_false_iff in Hi as [Hi _].
    split; [done|]. split; [by apply is_string_iff|]. by exists elapsed.
  - intros (Hi & Hs & elapsed & He & ->).
    unfold createMotionValueAnimationFor. rewrite He. simpl.
    by rewrite Hi, Hs.
Qed.

(** X6. With the accelerated values of the file, the main-thread strategy is
    started exactly when the flag of instant animations is not set and the
    [type] of the transition of the value is neither [false] nor ["inertia"];
    its options are those of the timeline: the literal, the defaults of the
    value name over it when the transition is not defined, and the two
    durations in milliseconds. *)
Theorem main_thread_exactly_when (o : gmap string JSValue) :
  createMotionValueAnimation getValueTransition getKeyframes
    isTransitionDefined getDefaultTransition env valueName value target
    transition onComplete = Some (Animate o)
  ↔ instantAnimationState_current env = false
    ∧ get vt "type" ≠ VBool false
    ∧ get vt "type" ≠ VStr "inertia"
    ∧ ∃ elapsed, elapsedOf t (delayOf vt t) = Some elapsed
        ∧ timeline valueName vt (literal elapsed) = Some o.
Proof.
  unfold createMotionValueAnimation. split.
  - intros H.
    destruct (start_inversion _ _ _ _ _ _ _ _ _ _ _ _ H)
      as (elapsed & He & Hi & Hs & Ht & _).
    apply orb_false_iff in Hi as [Hi Hf].
    split; [done|]. split; [|split; [|by exists elapsed]].
    + intros Hfalse%is_false_iff. congruence.
    + intros Hinertia%is_string_iff. congruence.
  - intros (Hi & Hf & Hs & elapsed & He & Ht).
    unfold createMotionValueAnimationFor. rewrite He. simpl. rewrite Hi. simpl.
    destruct (is_false (get vt "type")) eqn:Hf'; [by apply is_false_iff in Hf'|].
    destruct (is_string "inertia" (get vt "type")) eqn:Hs';
      [by apply is_string_iff in Hs'|].
    rewrite Ht. simpl.
    by replace (canAccelerateAnimation _ _ _ _ _) with false.
Qed.

(** X7. In the options of the instant and of the inertia strategy, the
    keyframes are those of [getKeyframes], the velocity is the one of the
    motion value and the elapsed time is the one that was computed, each
    unless the transition of the value has a field of that name, which is
    then the one in the options; every field of another name is in the
    options exactly when the transition of the value has it. *)
Theorem literal_fields_unless_given (r : Started) (o : gmap string JSValue) :
  start accelerated valueName value target transition onComplete = Some r →
  r = InstantAnimation o ∨ r = Inertia o →
  ∃ elapsed,
    elapsedOf t (delayOf vt t) = Some elapsed
    ∧ get o "keyframes"
      = default (getKeyframes value valueName target vt) (vt !! "keyframes")
    ∧ get o "velocity" = default (VNum (getVelocity value)) (vt !! "velocity")
    ∧ get o "elapsed" = default elapsed (vt !! "elapsed")
    ∧ ∀ k, k ∉ ["keyframes"; "velocity"; "elapsed"; "onUpdate"; "onComplete"] →
        o !! k = vt !! k.
Proof.
  intros H Hr.
  destruct (start_inversion _ _ _ _ _ _ _ _ _ _ _ _ H) as (elapsed & He & Hshape).
  assert (o = literal elapsed) as ->.
  { destruct Hr as [-> | ->]; simpl in Hshape; by destruct_and!. }
  exists elapsed. split; [done|].
  split; [|split; [|split]].
  1-3: unfold get, initialOptions;
    match goal with |- context [vt !! ?k] =>
      destruct (vt !! k) as [given|] eqn:Hk;
        [by rewrite (lookup_union_Some_l _ _ _ _ Hk)
        |rewrite lookup_union_r by done; vm_compute; reflexivity]
    end.
  intros k Hk. unfold initialOptions. rewrite lookup_union_l; [done|].
  apply not_elem_of_dom. rewrite !dom_insert_L, dom_singleton_L.
  intros Hin. apply Hk.
  rewrite !elem_of_union, !elem_of_singleton in Hin.
  rewrite !elem_of_cons. tauto.
Qed.

(** X8. In the options of the instant and of the inertia strategy,
    [onUpdate] is the closure of the literal only when the transition of the
    value has no [onUpdate] field, and a call of it then writes the value and
    does nothing else; with such a field, [onUpdate] is that field.  The same
    for [onComplete], whose closure then runs the callback of the caller and
    nothing else.  So no call writes the value and forwards it as well. *)
Theorem callbacks_closure_or_given (r : Started) (o : gmap string JSValue) :
  start accelerated valueName value target transition onComplete = Some r →
  r = InstantAnimation o ∨ r = Inertia o →
  (vt !! "onUpdate" = None →
     ∀ v, call (get o "onUpdate") [v] = ([ValueSet v], None))
  ∧ (∀ given, vt !! "onUpdate" = Some given → get o "onUpdate" = given)
  ∧ (vt !! "onComplete" = None →
     call (get o "onComplete") [] = call onComplete [])
  ∧ (∀ given, vt !! "onComplete" = Some given → get o "onComplete" = given).
Proof.
  intros H Hr.
  destruct (start_inversion _ _ _ _ _ _ _ _ _ _ _ _ H) as (elapsed & He & Hshape).
  assert (o = literal elapsed) as ->.
  { destruct Hr as [-> | ->]; simpl in Hshape; by destruct_and!. }
  split; [|split; [|split]].
  - intros Hnone v. by apply initialOptions_onUpdate.
  - intros given Hgiven. apply get_lookup.
    by apply initialOptions_transition_field.
  - intros Hnone. rewrite initialOptions_onComplete by done.
    apply andThen_nothing.
  - intros given Hgiven. apply get_lookup.
    by apply initialOptions_transition_field.
Qed.

(** X10. The main-thread strategy is started only when acceleration is
    excluded: the value name is not an accelerated value, or the backend is
    not supported, or the value has no owner, or the owner has an [onUpdate]
    prop, or the options ask for a repeat. *)
Theorem main_thread_when_not_eligible (o : gmap string JSValue) :
  start accelerated valueName value target transition onComplete
    = Some (Animate o) →
  valueName ∉ accelerated
  ∨ supports_waapi env = false
  ∨ owner value = None
  ∨ (∃ element, owner value = Some element
       ∧ truthy (get (getProps element) "onUpdate") = true)
  ∨ truthy (get o "repeat") = true.
Proof.
  intros H.
  destruct (start_inversion _ _ _ _ _ _ _ _ _ _ _ _ H)
    as (elapsed & He & _ & _ & _ & Hc).
  unfold canAccelerateAnimation in Hc.
  rewrite !andb_false_iff, bool_decide_eq_false, negb_false_iff in Hc.
  destruct Hc as [[[Hc|Hc]|Hc]|Hc]; [by left|by right; left| |by do 4 right].
  destruct (owner value) as [element|]; [|by do 2 right; left].
  do 3 right. left. exists element. by rewrite negb_false_iff in Hc.
Qed.


End Selector.

(** X9. The delay that is used is truthy or the number 0: a delay that is
    [NaN], [undefined], [null] or 0 at the value gives way to the one of the
    root, and such a delay at the root to 0.  So a delay that is a number is
    never [NaN] when it is converted to milliseconds. *)
Theorem delay_truthy_or_zero (vt transition : gmap string JSValue) :
  (truthy (delayOf vt transition) = true ∨ delayOf vt transition = VNum 0)
  ∧ delayOf vt transition ≠ VUndefined
  ∧ delayOf vt transition ≠ VNull
  ∧ ∀ d, delayOf vt transition = VNum d → PrimFloat.is_nan d = false.
Proof.
  assert (truthy (delayOf vt transition) = true ∨ delayOf vt transition = VNum 0)
    as Hcases.
  { rewrite delayOf_cases.
    destruct (truthy (get vt "delay")) eqn:Hv; [by left|].
    destruct (truthy (get transition "delay")) eqn:Hr; [by left|by right]. }
  split; [done|]. split; [|split].
  - intros Hu. by destruct Hcases as [Ht|Hz]; rewrite Hu in *.
  - intros Hu. by destruct Hcases as [Ht|Hz]; rewrite Hu in *.
  - intros d Hd. rewrite Hd in Hcases. destruct Hcases as [Ht|Hz].
    + simpl in Ht. apply negb_true_iff, orb_false_iff in Ht. by destruct Ht.
    + assert (truthy (VNum d) = false) as Hf by (by rewrite Hz).
      simpl in Hf. apply negb_false_iff in Hf.
      destruct (PrimFloat.is_nan d) eqn:Hnan; [|done].
      assert (PrimFloat.is_nan 0 = PrimFloat.is_nan d) as Heq.
      { by apply (f_equal (λ v, match v with
                                 | VNum x => PrimFloat.is_nan x
                                 | _ => false
                                 end)) in Hz. }
      rewrite Hnan in Heq. vm_compute in Heq. done.
Qed.

Lemma inertia_start :
  Collaborators.createMotionValueAnimation browser "x" atRest (VNum 1)
    (Some {[ "type" := VStr "inertia"; "velocity" := VNum 200;
             "duration" := VNum 2 ]}) (VFun "done")
  = Some (Inertia inertiaOptions).
Proof. vm_compute. reflexivity. Qed.

Lemma tween_start :
  Collaborators.createMotionValueAnimation browser "opacity" atRest (VNum 1)
    (Some {[ "delay" := VNum 0.2; "duration" := VNum 1 ]}) (VFun "done")
  = Some (Animate tweenOptions).
Proof. vm_compute. reflexivity. Qed.

Lemma literal_fields_unless_given_witness :
  get inertiaOptions "velocity" = VNum 200
  ∧ get inertiaOptions "keyframes" = VArr [VNum 0; VNum 1]
  ∧ inertiaOptions !! "duration" = Some (VNum 2).
Proof.
  destruct (literal_fields_unless_given Collaborators.getValueTransition
    Collaborators.getKeyframes Collaborators.isTransitionDefined
    Collaborators.getDefaultTransition browser acceleratedValues "x" atRest
    (VNum 1) _ (VFun "done") _ inertiaOptions inertia_start (or_intror eq_refl))
    as (elapsed & _ & Hk & Hv & _ & Hother).
  split; [|split].
  - rewrite Hv. vm_compute. reflexivity.
  - rewrite Hk. vm_compute. reflexivity.
  - rewrite Hother by (apply (bool_decide_unpack _); vm_compute; exact I).
    vm_compute. reflexivity.
Defined.

Lemma callbacks_closure_or_given_witness :
  call (get inertiaOptions "onUpdate") [VNum 1] = ([ValueSet (VNum 1)], None)
  ∧ call (get inertiaOptions "onComplete") [] = ([Called "done" []], None).
Proof.
  destruct (callbacks_closure_or_given Collaborators.getValueTransition
    Collaborators.getKeyframes Collaborators.isTransitionDefined
    Collaborators.getDefaultTransition browser acceleratedValues "x" atRest
    (VNum 1) _ (VFun "done") _ inertiaOptions inertia_start (or_intror eq_refl))
    as (Hu & _ & Hc & _).
  split.
  - apply Hu. vm_compute. reflexivity.
  - rewrite Hc by (vm_compute; reflexivity). reflexivity.
Defined.

Lemma main_thread_when_not_eligible_witness :
  "opacity" ∉ acceleratedValues
  ∨ supports_waapi browser = false
  ∨ owner atRest = None
  ∨ (∃ element, owner atRest = Some element
       ∧ truthy (get (getProps element) "onUpdate") = true)
  ∨ truthy (get tweenOptions "repeat") = true.
Proof.
  exact (main_thread_when_not_eligible Collaborators.getValueTransition
    Collaborators.getKeyframes Collaborators.isTransitionDefined
    Collaborators.getDefaultTransition browser acceleratedValues "opacity"
    atRest (VNum 1) _ (VFun "done") tweenOptions tween_start).
Defined.



End SelectorDecisions.
